(** * Verification of the directory-metadata server (fedorkolmykow/test_task)

    Shallow embedding of [src/config.py] and
    [src/server/routes/logical_route.py]: the process environment, the
    [Config] class body executed at import time, [os.path.splitext], and the
    [GetDirectory.get] handler of [GET /api/meta] over an abstract
    operating-system interface ([os.listdir] and [os.stat]). Python exceptions
    are the left side of a sum type. *)

From Stdlib Require Import ZArith Ascii String List Lia Bool.
From stdpp Require Import base gmap strings list.

Open Scope Z_scope.

(* ------------------------------------------------------------------ *)
(** ** Python exceptions and the exception monad *)

(** errno values that [os.listdir] / [os.stat] report through [OSError]
    ([ENOENT] is [FileNotFoundError], [EACCES] is [PermissionError],
    [ENOTDIR] is [NotADirectoryError]; [gmtime_r] reports [EOVERFLOW]). *)
Inductive errno := ENOENT | EACCES | ENOTDIR | ELOOP | EOVERFLOW.

Inductive exc :=
| IndexError
| OSError (e : errno)
| ValueError
| OverflowError.

(** A Python computation: it raises an exception or returns a value. *)
Definition py (A : Type) : Type := (exc + A)%type.

Definition raise {A} (e : exc) : py A := inl e.
Definition ret {A} (a : A) : py A := inr a.

Definition py_bind {A B} (m : py A) (k : A -> py B) : py B :=
  match m with
  | inl e => inl e
  | inr a => k a
  end.

Notation "'let*' x ':=' m 'in' k" := (py_bind m (fun x => k))
  (at level 200, x name, m at level 100, k at level 200).

(* ------------------------------------------------------------------ *)
(** ** The process environment ([os.environ]) *)

Abbreviation environ := (gmap string string).

(** Values of the Python expression [os.environ.get(k, False)]: a string
    or the default [False]. *)
Inductive pyval := PyStr (s : string) | PyBool (b : bool).

(** Python [==] between a [str] and a [bool] / [str]. *)
Definition py_eqb (a b : pyval) : bool :=
  match a, b with
  | PyStr x, PyStr y => String.eqb x y
  | PyBool x, PyBool y => Bool.eqb x y
  | _, _ => false
  end.

(** [os.environ.get(k, default)] *)
Definition environ_get (env : environ) (k : string) (default : pyval) : pyval :=
  match env !! k with
  | Some v => PyStr v
  | None => default
  end.

(** [os.getenv(k, default)] with a string default *)
Definition getenv (env : environ) (k : string) (default : string) : string :=
  match env !! k with
  | Some v => v
  | None => default
  end.

(* ------------------------------------------------------------------ *)
(** ** [src/config.py] *)

Record ServerConfig := { DEBUG : bool }.

(** The body of [class Config(ServerConfig)], run once when [config] is
    imported at process start:
<<
    os.environ["DIRECTORY"] = "./"
    DEBUG = os.environ.get("PROJECT_DEBUG", False) == "True"
>>
    It returns the environment after the assignment and the class. *)
Definition Config (env : environ) : environ * ServerConfig :=
  let env := <["DIRECTORY" := "./"]> env in
  (env, {| DEBUG := py_eqb (environ_get env "PROJECT_DEBUG" (PyBool false))
                           (PyStr "True") |}).

(* ------------------------------------------------------------------ *)
(** ** [os.path.splitext] (posixpath, [sep = '/'], [extsep = '.']) *)

(** [p.rfind(c)] over the characters of [p]: the last index of [c], or -1. *)
Fixpoint rfind_aux (c : ascii) (l : list ascii) (i acc : Z) : Z :=
  match l with
  | [] => acc
  | x :: r => rfind_aux c r (i + 1) (if Ascii.eqb x c then i else acc)
  end.

Definition rfind (l : list ascii) (c : ascii) : Z := rfind_aux c l 0 (-1).

(** The loop of [genericpath._splitext] that skips leading dots:
<<
    while filenameIndex < dotIndex:
        if p[filenameIndex:filenameIndex+1] != extsep:
            return p[:dotIndex], p[dotIndex:]
        filenameIndex += 1
    return p, p[:0]
>>
    [fuel] is the number of iterations left, [dotIndex - filenameIndex]. *)
Fixpoint skip_leading_dots (l : list ascii) (filenameIndex : nat) (fuel : nat)
  (dotIndex : nat) : list ascii * list ascii :=
  match fuel with
  | O => (l, [])
  | S fuel' =>
      if negb (Ascii.eqb (nth filenameIndex l " "%char) "."%char)
      then (firstn dotIndex l, skipn dotIndex l)
      else skip_leading_dots l (S filenameIndex) fuel' dotIndex
  end.

(** [genericpath._splitext(p, '/', None, '.')] *)
Definition splitext_list (p : list ascii) : list ascii * list ascii :=
  let sepIndex := rfind p "/"%char in
  let dotIndex := rfind p "."%char in
  if sepIndex <? dotIndex then
    let filenameIndex := sepIndex + 1 in
    skip_leading_dots p (Z.to_nat filenameIndex)
      (Z.to_nat (dotIndex - filenameIndex)) (Z.to_nat dotIndex)
  else (p, []).

Definition splitext (p : string) : string * string :=
  let '(root, ext) := splitext_list (list_ascii_of_string p) in
  (string_of_list_ascii root, string_of_list_ascii ext).

(* ------------------------------------------------------------------ *)
(** ** The operating system: [os.listdir] and [os.stat] *)

(** File type of [st_mode] ([os.stat] follows symbolic links). *)
Inductive file_type := S_IFREG | S_IFDIR | S_IFOTHER.

Definition file_type_eqb (a b : file_type) : bool :=
  match a, b with
  | S_IFREG, S_IFREG | S_IFDIR, S_IFDIR | S_IFOTHER, S_IFOTHER => true
  | _, _ => false
  end.

(** [st_ctime] after the [int(...)] of the handler: whole seconds. *)
Record stat_result := { st_type : file_type; st_ctime : Z }.

(** The state of the filesystem seen by one request: the result of the
    [opendir]/[readdir] and [stat] system calls on a path string. *)
Record filesystem := {
  fs_listdir : string -> errno + list string;
  fs_stat : string -> errno + stat_result
}.

(** [os.listdir(path)] *)
Definition os_listdir (fs : filesystem) (path : string) : py (list string) :=
  match fs_listdir fs path with
  | inl e => raise (OSError e)
  | inr names => ret names
  end.

(** [os.path.getctime(path)], i.e. [os.stat(path).st_ctime] *)
Definition getctime (fs : filesystem) (path : string) : py Z :=
  match fs_stat fs path with
  | inl e => raise (OSError e)
  | inr st => ret (st_ctime st)
  end.

(** [os.path.isfile(path)]: [stat] errors are caught and give [False]. *)
Definition isfile (fs : filesystem) (path : string) : bool :=
  match fs_stat fs path with
  | inl _ => false
  | inr st => file_type_eqb (st_type st) S_IFREG
  end.

(* ------------------------------------------------------------------ *)
(** ** [datetime.utcfromtimestamp(ts).strftime('%Y-%m-%d %H:%M:%S')] *)

(** Proleptic Gregorian date of a day count since 1970-01-01. *)
Definition civil_from_days (z : Z) : Z * Z * Z :=
  let z := z + 719468 in
  let era := z / 146097 in
  let doe := z - era * 146097 in
  let yoe := (doe - doe / 1460 + doe / 36524 - doe / 146096) / 365 in
  let y := yoe + era * 400 in
  let doy := doe - (365 * yoe + yoe / 4 - yoe / 100) in
  let mp := (5 * doy + 2) / 153 in
  let d := doy - (153 * mp + 2) / 5 + 1 in
  let m := if mp <? 10 then mp + 3 else mp - 9 in
  ((if m <=? 2 then y + 1 else y), m, d).

Definition digit (n : Z) : ascii := ascii_of_nat (48 + Z.to_nat n).

(** [n] in decimal, zero-padded to [width] digits. *)
Fixpoint pad (width : nat) (n : Z) : string :=
  match width with
  | O => EmptyString
  | S w => (pad w (n / 10) +:+ String (digit (n mod 10)) EmptyString)
  end.

Definition MINYEAR := 1.
Definition MAXYEAR := 9999.

(** [n >= 0] in decimal without leading zeros, using at most [fuel]
    digits. *)
Fixpoint dec_aux (fuel : nat) (n : Z) (acc : string) : string :=
  match fuel with
  | O => acc
  | S f =>
      let acc := String (digit (n mod 10)) acc in
      if n <? 10 then acc else dec_aux f (n / 10) acc
  end.

Definition dec (n : Z) : string := dec_aux (S (Z.to_nat (Z.log2 n))) n EmptyString.

(** The platform limits of Linux on x86-64: a 64-bit [time_t] and a 32-bit
    [int] ([struct tm]'s [tm_year]). *)
Definition TIME_T_MIN := - 2 ^ 63.
Definition TIME_T_MAX := 2 ^ 63 - 1.
Definition INT_MIN := - 2 ^ 31.
Definition INT_MAX := 2 ^ 31 - 1.

(** [datetime.utcfromtimestamp(ts)] for an [int] timestamp: CPython
    converts [ts] to [time_t] ([OverflowError] if it does not fit), breaks it
    down with [gmtime_r] (which fails with [EOVERFLOW], raised as [OSError],
    when [tm_year = year - 1900] does not fit an [int]), and builds the
    [datetime], which raises [ValueError] for a year outside
    [MINYEAR..MAXYEAR]. The result is (year, month, day, hour, minute,
    second). *)
Definition utcfromtimestamp (ts : Z) : py (Z * Z * Z * Z * Z * Z) :=
  if negb ((TIME_T_MIN <=? ts) && (ts <=? TIME_T_MAX)) then raise OverflowError
  else
    let '(y, m, d) := civil_from_days (ts / 86400) in
    let s := ts mod 86400 in
    if negb ((INT_MIN <=? y - 1900) && (y - 1900 <=? INT_MAX))
    then raise (OSError EOVERFLOW)
    else if negb ((MINYEAR <=? y) && (y <=? MAXYEAR)) then raise ValueError
    else ret (y, m, d, s / 3600, s mod 3600 / 60, s mod 60).

(** [.strftime('%Y-%m-%d %H:%M:%S')] through glibc's [strftime]: [%Y] is
    the year in decimal without padding, the other fields have two digits. *)
Definition strftime (dt : Z * Z * Z * Z * Z * Z) : string :=
  let '(y, m, d, hh, mm, ss) := dt in
  (dec y +:+ "-" +:+ pad 2 m +:+ "-" +:+ pad 2 d +:+ " " +:+
   pad 2 hh +:+ ":" +:+ pad 2 mm +:+ ":" +:+ pad 2 ss)%string.

(** [datetime.utcfromtimestamp(ts).strftime('%Y-%m-%d %H:%M:%S')] *)
Definition utc_strftime (ts : Z) : py string :=
  let* dt := utcfromtimestamp ts in ret (strftime dt).

(** The year component of [civil_from_days]. *)
Definition civil_year (days : Z) : Z :=
  let '(y, _, _) := civil_from_days days in y.

(** Checks, for the [n] day offsets [doe, doe+1, ...] inside one 400-year
    cycle, that the year of [civil_from_days] stays in [0..400] and does not
    decrease from one day to the next. *)
Fixpoint year_window_ok (n : nat) (doe : Z) : bool :=
  match n with
  | O => true
  | S n' =>
      let y := civil_year (doe - 719468) in
      (0 <=? y) && (y <=? 400) && (y <=? civil_year (doe + 1 - 719468)) &&
      year_window_ok n' (doe + 1)
  end.

(* ------------------------------------------------------------------ *)
(** ** [GetDirectory.get] in [src/server/routes/logical_route.py] *)

(** One element of [resp["data"]]: the dict [{"name", "type", "time"}]. *)
Record FileEntry := { name : string; type : string; time : string }.

Record MetaResponse := { data : list FileEntry }.

(** [directory[-1]] *)
Definition index_last (s : string) : py ascii :=
  match String.get (Nat.pred (String.length s)) s with
  | Some c => ret c
  | None => raise IndexError
  end.

(** The body of [for f in os.listdir(directory):], threading
    [resp["data"]]:
<<
    ts = int(os.path.getctime(directory + f))
    t = datetime.utcfromtimestamp(ts).strftime('%Y-%m-%d %H:%M:%S')
    if os.path.isfile(directory + f):
        resp["data"].append({"name": f, "type": os.path.splitext(f)[1],
                             "time": t})
>> *)
Fixpoint get_loop (fs : filesystem) (directory : string) (names : list string)
  (acc : list FileEntry) : py (list FileEntry) :=
  match names with
  | [] => ret acc
  | f :: rest =>
      let* ts := getctime fs (directory +:+ f) in
      let* t := utc_strftime ts in
      if isfile fs (directory +:+ f)
      then get_loop fs directory rest
             (acc ++ [{| name := f; type := (splitext f).2; time := t |}])
      else get_loop fs directory rest acc
  end.

(** The trailing-separator normalization:
<<
    if directory[-1] != "/":
        directory += "/"
>> *)
Definition normalize_directory (directory : string) : py string :=
  let* c := index_last directory in
  if negb (Ascii.eqb c "/"%char) then ret (directory +:+ "/")%string
  else ret directory.

(** [GetDirectory.get] from line 15 on, once [directory] has been read. *)
Definition list_directory (fs : filesystem) (directory : string)
  : py (MetaResponse * Z) :=
  let* directory := normalize_directory directory in
  let* names := os_listdir fs directory in
  let* d := get_loop fs directory names [] in
  ret ({| data := d |}, 200).

(** [GetDirectory.get]: [directory = os.getenv("DIRECTORY", "./")] is read
    from the environment at request time; the result is the response and
    its status code, or the exception that escapes the handler. *)
Definition get (env : environ) (fs : filesystem) : py (MetaResponse * Z) :=
  list_directory fs (getenv env "DIRECTORY" "./").

(* ------------------------------------------------------------------ *)
(** ** Definitions that follow the specification's words

    These are stated from [spec.md], to be compared with the definitions
    above that embed the source. *)

(** Last index of [c] in [l]. *)
Fixpoint last_index (c : ascii) (l : list ascii) : option nat :=
  match l with
  | [] => None
  | x :: r =>
      match last_index c r with
      | Some j => Some (S j)
      | None => if Ascii.eqb x c then Some O else None
      end
  end.

(** Spec: the extension is "the substring of a filename beginning at the
    last period character, inclusive", [""] without a period. *)
Definition ext_from_last_period (f : string) : string :=
  let l := list_ascii_of_string f in
  match last_index "."%char l with
  | None => EmptyString
  | Some d => string_of_list_ascii (skipn d l)
  end.

(** The same, except that a last period preceded only by periods (a name
    such as [.bashrc] or [..]) gives [""]. *)
Definition ext_unless_leading_dots (f : string) : string :=
  let l := list_ascii_of_string f in
  match last_index "."%char l with
  | None => EmptyString
  | Some d =>
      if existsb (fun x => negb (Ascii.eqb x "."%char)) (firstn d l)
      then string_of_list_ascii (skipn d l)
      else EmptyString
  end.

(** Spec: "normalize by appending a path separator if missing". *)
Definition normalize_spec (directory : string) : string :=
  match index_last directory with
  | inr "/"%char => directory
  | _ => (directory +:+ "/")%string
  end.

(** Spec §4.2 step order: test for a regular file first (skip otherwise),
    then extract the extension and the creation timestamp. *)
Fixpoint list_files_spec_order (fs : filesystem) (directory : string)
  (names : list string) : py (list FileEntry) :=
  match names with
  | [] => ret []
  | f :: rest =>
      if isfile fs (directory +:+ f) then
        let* ts := getctime fs (directory +:+ f) in
        let* t := utc_strftime ts in
        let* r := list_files_spec_order fs directory rest in
        ret ({| name := f; type := (splitext f).2; time := t |} :: r)
      else list_files_spec_order fs directory rest
  end.

(** Two outcomes of the handler are the same up to enumeration order: both
    return, with the same status and the same entries in some order, or
    both raise. *)
Definition same_outcome (r1 r2 : py (MetaResponse * Z)) : Prop :=
  match r1, r2 with
  | inr (m1, c1), inr (m2, c2) => Permutation (data m1) (data m2) /\ c1 = c2
  | inl _, inl _ => True
  | _, _ => False
  end.

(** Two results of [readdir] on one directory: the same error, or the same
    names in some order. *)
Definition same_listing (l1 l2 : errno + list string) : Prop :=
  match l1, l2 with
  | inl e1, inl e2 => e1 = e2
  | inr n1, inr n2 => Permutation n1 n2
  | _, _ => False
  end.

(* ------------------------------------------------------------------ *)
(** ** Concrete filesystems *)

Definition regular_stat : stat_result := {| st_type := S_IFREG; st_ctime := 1700000000 |}.
Definition dir_stat : stat_result := {| st_type := S_IFDIR; st_ctime := 1700000000 |}.

(** [./] holds the regular file [a.txt] and the subdirectory [sub];
    [/srv/] holds the regular file [b.log]. *)
Definition demo_fs : filesystem := {|
  fs_listdir := fun p =>
    if String.eqb p "./" then inr ["a.txt"; "sub"]%string
    else if String.eqb p "/srv/" then inr ["b.log"]%string
    else inl ENOENT;
  fs_stat := fun p =>
    if String.eqb p "./a.txt" || String.eqb p "/srv/b.log" then inr regular_stat
    else if String.eqb p "./sub" then inr dir_stat
    else inl ENOENT |}.

(** [demo_fs] with [./] enumerated in the other order. *)
Definition demo_fs_reordered : filesystem := {|
  fs_listdir := fun p =>
    if String.eqb p "./" then inr ["sub"; "a.txt"]%string
    else fs_listdir demo_fs p;
  fs_stat := fs_stat demo_fs |}.

(** [./] holds the regular file [a.txt] and [link], a symbolic link whose
    target does not exist, so that [stat("./link")] fails with [ENOENT]. *)
Definition dangling_fs : filesystem := {|
  fs_listdir := fun p =>
    if String.eqb p "./" then inr ["a.txt"; "link"]%string else inl ENOENT;
  fs_stat := fun p =>
    if String.eqb p "./a.txt" then inr regular_stat else inl ENOENT |}.

(** [./] holds the regular file [.bashrc]. *)
Definition dotfile_fs : filesystem := {|
  fs_listdir := fun p =>
    if String.eqb p "./" then inr [".bashrc"]%string else inl ENOENT;
  fs_stat := fun p =>
    if String.eqb p "./.bashrc" then inr regular_stat else inl ENOENT |}.

(** [./] is readable but not searchable (mode [r--]): [readdir] lists the
    regular file [a.txt], but [stat("./a.txt")] fails with [EACCES]. *)
Definition unsearchable_fs : filesystem := {|
  fs_listdir := fun p =>
    if String.eqb p "./" then inr ["a.txt"]%string else inl ENOENT;
  fs_stat := fun _ => inl EACCES |}.

(** [./] is an empty directory. *)
Definition empty_fs : filesystem := {|
  fs_listdir := fun p => if String.eqb p "./" then inr [] else inl ENOENT;
  fs_stat := fun _ => inl ENOENT |}.

(** The response of the handler on [demo_fs]. *)
Definition demo_response : MetaResponse :=
  {| data := [{| name := "a.txt"; type := ".txt";
                 time := "2023-11-14 22:13:20" |}]%string |}.

(** No directory exists. *)
Definition missing_fs : filesystem := {|
  fs_listdir := fun _ => inl ENOENT;
  fs_stat := fun _ => inl ENOENT |}.

(* ------------------------------------------------------------------ *)
(** ** The calendar of [civil_from_days] *)

Lemma year_window_ok_spec n start doe :
  year_window_ok n start = true -> start <= doe < start + Z.of_nat n ->
  0 <= civil_year (doe - 719468) <= 400 /\
  civil_year (doe - 719468) <= civil_year (doe + 1 - 719468).
Proof.
  revert start; induction n as [|n IH]; intros start Hc Hd; [lia|].
  simpl in Hc. apply andb_prop in Hc as [Hc Hrest].
  destruct (Z.eq_dec doe start) as [->|Hne].
  - repeat (apply andb_prop in Hc as [Hc ?]).
    repeat match goal with H : (_ <=? _) = true |- _ => apply Z.leb_le in H end.
    lia.
  - apply (IH (start + 1)); [exact Hrest|lia].
Qed.

Lemma year_window : year_window_ok (Z.to_nat 146097) 0 = true.
Proof. vm_compute. reflexivity. Qed.

Lemma civil_year_window r :
  0 <= r < 146097 ->
  0 <= civil_year (r - 719468) <= 400 /\
  civil_year (r - 719468) <= civil_year (r + 1 - 719468).
Proof.
  intros H. apply (year_window_ok_spec _ 0 r year_window).
  rewrite Z2Nat.id by lia. lia.
Qed.

Lemma civil_year_window_mono k r :
  0 <= r -> r + Z.of_nat k < 146097 ->
  civil_year (r - 719468) <= civil_year (r + Z.of_nat k - 719468).
Proof.
  induction k as [|k IH]; intros H0 H1.
  - replace (r + Z.of_nat 0) with r by lia. lia.
  - pose proof (IH H0 ltac:(lia)) as Hk.
    pose proof (proj2 (civil_year_window (r + Z.of_nat k) ltac:(lia))) as Hs.
    replace (r + Z.of_nat (S k)) with (r + Z.of_nat k + 1) by lia. lia.
Qed.

Lemma civil_year_era d :
  civil_year d = 400 * ((d + 719468) / 146097) +
                 civil_year ((d + 719468) mod 146097 - 719468).
Proof.
  unfold civil_year, civil_from_days. cbv beta iota zeta.
  set (z := d + 719468).
  replace ((z mod 146097 - 719468 + 719468)) with (z mod 146097) by lia.
  rewrite (Z.div_small (z mod 146097) 146097) by (apply Z.mod_pos_bound; lia).
  replace (z - z / 146097 * 146097) with (z mod 146097)
    by (pose proof (Z.mod_eq z 146097); lia).
  replace (z mod 146097 - 0 * 146097) with (z mod 146097) by lia.
  match goal with |- context [ (?m <=? 2) ] => destruct (m <=? 2) end; lia.
Qed.

(** The year of [civil_from_days] never decreases. *)
Lemma civil_year_mono d1 d2 : d1 <= d2 -> civil_year d1 <= civil_year d2.
Proof.
  intros H. rewrite (civil_year_era d1), (civil_year_era d2).
  set (z1 := d1 + 719468). set (z2 := d2 + 719468).
  pose proof (Z.mod_pos_bound z1 146097 ltac:(lia)).
  pose proof (Z.mod_pos_bound z2 146097 ltac:(lia)).
  pose proof (Z.div_mod z1 146097 ltac:(lia)).
  pose proof (Z.div_mod z2 146097 ltac:(lia)).
  pose proof (proj1 (civil_year_window (z1 mod 146097) ltac:(lia))).
  pose proof (proj1 (civil_year_window (z2 mod 146097) ltac:(lia))).
  assert (Hq : z1 / 146097 <= z2 / 146097) by (apply Z.div_le_mono; lia).
  destruct (Z.eq_dec (z1 / 146097) (z2 / 146097)) as [Heq|Hne]; [|lia].
  assert (Hr : z1 mod 146097 <= z2 mod 146097) by lia.
  pose proof (civil_year_window_mono (Z.to_nat (z2 mod 146097 - z1 mod 146097))
                (z1 mod 146097) ltac:(lia) ltac:(rewrite Z2Nat.id by lia; lia)) as Hm.
  rewrite Z2Nat.id in Hm by lia.
  replace (z1 mod 146097 + (z2 mod 146097 - z1 mod 146097)) with (z2 mod 146097)
    in Hm by lia.
  rewrite Heq. lia.
Qed.

(** Year [Y] begins on day [D]. *)
Lemma civil_year_ge Y D d :
  civil_year D = Y -> civil_year (D - 1) = Y - 1 -> (Y <= civil_year d <-> D <= d).
Proof.
  intros H1 H2. split; intros H.
  - destruct (Z.le_gt_cases D d) as [|Hlt]; [assumption|].
    pose proof (civil_year_mono d (D - 1) ltac:(lia)). lia.
  - pose proof (civil_year_mono D d H). lia.
Qed.

(** The year of a timestamp against the bounds checked by
    [utcfromtimestamp] and against the year 1000. *)
Lemma timestamp_year ts :
  let y := civil_year (ts / 86400) in
  (1 <= y <-> -62135596800 <= ts) /\ (10000 <= y <-> 253402300800 <= ts) /\
  (-2147481748 <= y <-> -67768040609740800 <= ts) /\
  (2147485548 <= y <-> 67768036191676800 <= ts) /\
  (1000 <= y <-> -30610224000 <= ts).
Proof.
  cbv zeta.
  pose proof (Z.div_mod ts 86400 ltac:(lia)).
  pose proof (Z.mod_pos_bound ts 86400 ltac:(lia)).
  rewrite (civil_year_ge 1 (-719162)) by reflexivity.
  rewrite (civil_year_ge 10000 2932897) by reflexivity.
  rewrite (civil_year_ge (-2147481748) (-784352321872)) by reflexivity.
  rewrite (civil_year_ge 2147485548 784352270737) by reflexivity.
  rewrite (civil_year_ge 1000 (-354285)) by reflexivity.
  repeat split; intros; lia.
Qed.

Lemma utc_strftime_not_IndexError ts : utc_strftime ts <> raise IndexError.
Proof.
  unfold utc_strftime, utcfromtimestamp.
  destruct (negb _); [unfold raise; discriminate|].
  destruct (civil_from_days (ts / 86400)) as [[y m] d].
  destruct (negb _); [unfold raise; discriminate|].
  destruct (negb _); unfold raise, ret; discriminate.
Qed.

(** Outcome of the conversion in terms of the year of the timestamp. *)
Lemma utc_strftime_cases ts :
  let y := civil_year (ts / 86400) in
  (ts < TIME_T_MIN \/ TIME_T_MAX < ts) /\ utc_strftime ts = raise OverflowError \/
  (TIME_T_MIN <= ts <= TIME_T_MAX) /\ (y < 1900 + INT_MIN \/ 1900 + INT_MAX < y) /\
    utc_strftime ts = raise (OSError EOVERFLOW) \/
  (TIME_T_MIN <= ts <= TIME_T_MAX) /\ (1900 + INT_MIN <= y <= 1900 + INT_MAX) /\
    (y < MINYEAR \/ MAXYEAR < y) /\ utc_strftime ts = raise ValueError \/
  (TIME_T_MIN <= ts <= TIME_T_MAX) /\ (MINYEAR <= y <= MAXYEAR) /\
    exists t, utc_strftime ts = ret t.
Proof.
  cbv zeta. unfold utc_strftime, utcfromtimestamp, civil_year.
  destruct (civil_from_days (ts / 86400)) as [[y m] d].
  unfold INT_MIN, INT_MAX, MINYEAR, MAXYEAR.
  destruct (Z.leb_spec TIME_T_MIN ts), (Z.leb_spec ts TIME_T_MAX); cbn [andb negb];
    [|left; split; [lia|reflexivity]..].
  destruct (Z.leb_spec (- 2 ^ 31) (y - 1900)), (Z.leb_spec (y - 1900) (2 ^ 31 - 1));
    cbn [andb negb];
    [|right; left; split; [lia|split; [lia|reflexivity]]..].
  destruct (Z.leb_spec 1 y), (Z.leb_spec y 9999); cbn [andb negb];
    [|right; right; left; split; [lia|split; [lia|split; [lia|reflexivity]]]..].
  right; right; right. split; [lia|split; [lia|eexists; reflexivity]].
Qed.

(** [datetime.utcfromtimestamp(ts).strftime(...)] returns a string exactly
    for the timestamps from 0001-01-01 00:00:00 to 9999-12-31 23:59:59
    UTC. *)
Lemma utc_strftime_succeeds_iff ts :
  (exists t, utc_strftime ts = ret t) <-> -62135596800 <= ts <= 253402300799.
Proof.
  pose proof (timestamp_year ts) as Hy. cbv zeta in Hy.
  pose proof (utc_strftime_cases ts) as Hc. cbv zeta in Hc.
  unfold TIME_T_MIN, TIME_T_MAX, INT_MIN, INT_MAX, MINYEAR, MAXYEAR in Hc.
  destruct Hc as [(Hr & ->)|[(Hr & Hi & ->)|[(Hr & Hi & Hv & ->)|(Hr & Hv & Hok)]]];
    (split; [intros [t Ht]; unfold raise, ret in Ht; try discriminate Ht|intros]);
    try lia; exact Hok.
Qed.

(** Length of the decimal representation of a year. *)
Lemma dec_length n : 1 <= n <= 9999 -> (String.length (dec n) = 4%nat <-> 1000 <= n).
Proof.
  intros Hn. unfold dec.
  destruct (Z.ltb_spec n 10) as [H1|H1].
  { cbn [dec_aux]. rewrite (proj2 (Z.ltb_lt n 10) H1). simpl. split; [discriminate|lia]. }
  assert (Hl : 3 <= Z.log2 n) by (apply Z.log2_le_pow2; simpl; lia).
  destruct (Z.to_nat (Z.log2 n)) as [|[|[|k]]] eqn:E; [lia..|].
  cbn [dec_aux].
  rewrite (proj2 (Z.ltb_ge n 10) H1).
  destruct (Z.ltb_spec (n / 10) 10) as [H2|H2];
    [simpl; split; [discriminate|Z.div_mod_to_equations; lia]|].
  destruct (Z.ltb_spec (n / 10 / 10) 10) as [H3|H3];
    [simpl; split; [discriminate|Z.div_mod_to_equations; lia]|].
  destruct (Z.ltb_spec (n / 10 / 10 / 10) 10) as [H4|H4];
    [simpl; split; [intros _; Z.div_mod_to_equations; lia|reflexivity]|].
  exfalso. Z.div_mod_to_equations. lia.
Qed.

(* ------------------------------------------------------------------ *)
(** ** The loop of [GetDirectory.get] *)

Section Loop.
Variable fs : filesystem.
Variable directory : string.

(** The time string computed for entry [f], if [stat] and the formatting
    succeed. *)
Definition entry_time (f : string) : py string :=
  let* ts := getctime fs (directory +:+ f) in utc_strftime ts.

Definition entry_ok (f : string) : bool :=
  match entry_time f with inr _ => true | inl _ => false end.

(** What iteration [f] appends to [resp["data"]]. *)
Definition entry_list (f : string) : list FileEntry :=
  match entry_time f with
  | inr t =>
      if isfile fs (directory +:+ f)
      then [{| name := f; type := (splitext f).2; time := t |}]
      else []
  | inl _ => []
  end.

Lemma get_loop_unfold f rest acc :
  get_loop fs directory (f :: rest) acc =
  match entry_time f with
  | inl e => inl e
  | inr t =>
      get_loop fs directory rest
        (acc ++ (if isfile fs (directory +:+ f)
                 then [{| name := f; type := (splitext f).2; time := t |}]
                 else []))
  end.
Proof.
  unfold entry_time; simpl.
  destruct (getctime fs (directory +:+ f)) as [e|ts]; simpl; [reflexivity|].
  destruct (utc_strftime ts) as [e|t]; simpl; [reflexivity|].
  destruct (isfile fs (directory +:+ f)); [reflexivity|].
  now rewrite app_nil_r.
Qed.

Lemma get_loop_ok names acc :
  forallb entry_ok names = true ->
  get_loop fs directory names acc = ret (acc ++ flat_map entry_list names).
Proof.
  revert acc; induction names as [|f rest IH]; intros acc Hok.
  - simpl. now rewrite app_nil_r.
  - simpl in Hok. apply andb_prop in Hok as [Hf Hrest].
    rewrite get_loop_unfold. cbn [flat_map]. unfold entry_list at 1.
    unfold entry_ok in Hf.
    destruct (entry_time f) as [e|t]; [discriminate|].
    rewrite IH by exact Hrest. rewrite app_assoc.
    now destruct (isfile fs (directory +:+ f)).
Qed.

Lemma get_loop_fail names acc :
  forallb entry_ok names = false ->
  exists e, get_loop fs directory names acc = raise e.
Proof.
  revert acc; induction names as [|f rest IH]; intros acc Hok.
  - discriminate.
  - simpl in Hok. rewrite get_loop_unfold. unfold entry_ok in Hok.
    destruct (entry_time f) as [e|t]; [now exists e|].
    simpl in Hok. now apply IH.
Qed.

Lemma get_loop_ret_inv names acc out :
  get_loop fs directory names acc = ret out ->
  forallb entry_ok names = true /\ out = acc ++ flat_map entry_list names.
Proof.
  intros H. destruct (forallb entry_ok names) eqn:Hok.
  - rewrite get_loop_ok in H by exact Hok. split; [reflexivity|].
    now injection H.
  - destruct (get_loop_fail names acc Hok) as [e He]. rewrite He in H; discriminate.
Qed.

Lemma get_loop_not_IndexError names acc :
  get_loop fs directory names acc <> raise IndexError.
Proof.
  revert acc; induction names as [|f rest IH]; intros acc.
  - discriminate.
  - rewrite get_loop_unfold. unfold entry_time, getctime.
    destruct (fs_stat fs (directory +:+ f)) as [e|st]; [discriminate|].
    unfold ret at 1. cbn [py_bind]. intros H.
    destruct (utc_strftime (st_ctime st)) as [e|t] eqn:Ht.
    + injection H as ->. exact (utc_strftime_not_IndexError _ Ht).
    + exact (IH _ H).
Qed.

Lemma entries_names names :
  forallb entry_ok names = true ->
  map name (flat_map entry_list names) =
  List.filter (fun f => isfile fs (directory +:+ f)) names.
Proof.
  induction names as [|f rest IH]; intros Hok; [reflexivity|].
  simpl in Hok. apply andb_prop in Hok as [Hf Hrest].
  cbn [flat_map List.filter]. rewrite map_app, IH by exact Hrest.
  unfold entry_ok in Hf. unfold entry_list at 1.
  destruct (entry_time f) as [e|t]; [discriminate|].
  now destruct (isfile fs (directory +:+ f)).
Qed.
End Loop.

(* ------------------------------------------------------------------ *)
(** ** Sample evaluations *)

Example splitext_tar_gz : splitext "report.tar.gz" = ("report.tar", ".gz")%string.
Proof. reflexivity. Qed.
Example splitext_readme : splitext "README" = ("README", "")%string.
Proof. reflexivity. Qed.
Example splitext_dotfile : splitext ".bashrc" = (".bashrc", "")%string.
Proof. reflexivity. Qed.
Example splitext_trailing_dot : splitext "a." = ("a", ".")%string.
Proof. reflexivity. Qed.

Example utc_strftime_epoch : utc_strftime 0 = ret "1970-01-01 00:00:00"%string.
Proof. reflexivity. Qed.
Example utc_strftime_sample :
  utc_strftime 1700000000 = ret "2023-11-14 22:13:20"%string.
Proof. reflexivity. Qed.
Example utc_strftime_leap : utc_strftime 951782400 = ret "2000-02-29 00:00:00"%string.
Proof. reflexivity. Qed.
Example get_demo_skips_subdirectory :
  get ∅ demo_fs =
    ret ({| data := [{| name := "a.txt"; type := ".txt";
                        time := "2023-11-14 22:13:20" |}]%string |}, 200).
Proof. reflexivity. Qed.
Example utc_strftime_overflow : utc_strftime 253402300800 = raise ValueError.
Proof. reflexivity. Qed.
Example utc_strftime_year_one :
  utc_strftime (-62135596800) = ret "1-01-01 00:00:00"%string.
Proof. reflexivity. Qed.
Example utc_strftime_time_t : utc_strftime (2 ^ 63) = raise OverflowError.
Proof. reflexivity. Qed.

(* ------------------------------------------------------------------ *)
(** ** Lemmas on [rfind] and [splitext] *)

Lemma rfind_aux_last_index c l i acc :
  rfind_aux c l i acc =
  match last_index c l with
  | Some j => i + Z.of_nat j
  | None => acc
  end.
Proof.
  revert i acc; induction l as [|x r IH]; intros i acc; simpl; [reflexivity|].
  rewrite IH. destruct (last_index c r) as [j|]; [lia|].
  destruct (Ascii.eqb x c); simpl; lia.
Qed.

Lemma last_index_not_in c l : ~ In c l -> last_index c l = None.
Proof.
  induction l as [|x r IH]; intros Hn; simpl; [reflexivity|].
  rewrite IH by (intros Hi; apply Hn; now right).
  destruct (Ascii.eqb x c) eqn:E; [|reflexivity].
  apply Ascii.eqb_eq in E. subst. exfalso. apply Hn. now left.
Qed.

Lemma last_index_lt c l d : last_index c l = Some d -> (d < length l)%nat.
Proof.
  revert d; induction l as [|x r IH]; intros d H; simpl in H; [discriminate|].
  destruct (last_index c r) as [j|] eqn:E.
  - injection H as <-. simpl. specialize (IH j eq_refl). lia.
  - destruct (Ascii.eqb x c); [|discriminate]. injection H as <-. simpl. lia.
Qed.

Lemma skipn_nth_cons {A} (l : list A) k dflt :
  (k < length l)%nat -> skipn k l = nth k l dflt :: skipn (S k) l.
Proof.
  revert k; induction l as [|x r IH]; intros k Hk; simpl in Hk; [lia|].
  destruct k as [|k]; [reflexivity|].
  simpl. apply IH. lia.
Qed.

Lemma skip_leading_dots_existsb l k n d :
  (k + n <= length l)%nat ->
  skip_leading_dots l k n d =
  if existsb (fun x => negb (Ascii.eqb x "."%char)) (firstn n (skipn k l))
  then (firstn d l, skipn d l) else (l, []).
Proof.
  revert k; induction n as [|n IH]; intros k Hk; simpl; [reflexivity|].
  rewrite (skipn_nth_cons l k " "%char) by lia. simpl.
  destruct (negb (Ascii.eqb (nth k l " "%char) "."%char)); simpl; [reflexivity|].
  apply IH. lia.
Qed.

Lemma splitext_ext_no_sep f :
  ~ In "/"%char (list_ascii_of_string f) ->
  (splitext f).2 = ext_unless_leading_dots f.
Proof.
  intros Hsep. unfold splitext, splitext_list, ext_unless_leading_dots, rfind.
  set (l := list_ascii_of_string f) in *.
  rewrite !rfind_aux_last_index, (last_index_not_in _ _ Hsep).
  destruct (last_index "."%char l) as [d|] eqn:Hd; simpl; [|reflexivity].
  pose proof (last_index_lt _ _ _ Hd) as Hlt.
  replace (-1 <? 0 + Z.of_nat d) with true by (symmetry; apply Z.ltb_lt; lia).
  replace (Z.to_nat (-1 + 1)) with O by reflexivity.
  replace (Z.to_nat (0 + Z.of_nat d - (-1 + 1))) with d by lia.
  replace (Z.to_nat (0 + Z.of_nat d)) with d by lia.
  rewrite skip_leading_dots_existsb by (simpl; lia). simpl.
  now destruct (existsb _ _).
Qed.

(* ------------------------------------------------------------------ *)
(** ** Lemmas on the handler *)

Lemma Config_environ env : (Config env).1 = <["DIRECTORY" := "./"%string]> env.
Proof. reflexivity. Qed.

Lemma string_get_length s c :
  exists x, String.get (String.length s) (String c s) = Some x.
Proof.
  revert c; induction s as [|c' s IH]; intros c; simpl; [now exists c|].
  apply IH.
Qed.

Lemma normalize_directory_nonempty d :
  d <> EmptyString -> exists d', normalize_directory d = ret d'.
Proof.
  intros Hd. destruct d as [|c s]; [congruence|].
  unfold normalize_directory, index_last. simpl String.length.
  rewrite Nat.pred_succ. destruct (string_get_length s c) as [x Hx].
  rewrite Hx. simpl.
  destruct (negb (Ascii.eqb x "/"%char)); eexists; reflexivity.
Qed.

Lemma normalize_directory_empty :
  normalize_directory EmptyString = raise IndexError.
Proof. reflexivity. Qed.

Lemma list_directory_not_IndexError fs d d' :
  normalize_directory d = ret d' -> list_directory fs d <> raise IndexError.
Proof.
  intros Hn. unfold list_directory. rewrite Hn. cbn [py_bind ret].
  unfold os_listdir. destruct (fs_listdir fs d') as [e|names].
  - unfold raise. cbn [py_bind]. discriminate.
  - unfold ret at 1. cbn [py_bind].
    destruct (get_loop fs d' names []) as [e|out] eqn:E.
    + cbn [py_bind]. unfold raise. intros He. injection He as ->.
      exact (get_loop_not_IndexError fs d' names [] E).
    + unfold ret, raise. cbn [py_bind]. discriminate.
Qed.

Lemma forallb_Permutation {A} (p : A -> bool) l1 l2 :
  Permutation l1 l2 -> forallb p l1 = forallb p l2.
Proof.
  induction 1 as [|x l1 l2 _ IH|x y l|l1 l2 l3 _ IH1 _ IH2]; simpl.
  - reflexivity.
  - now rewrite IH.
  - rewrite !andb_assoc, (andb_comm (p y)). reflexivity.
  - congruence.
Qed.

Lemma entry_time_stat fs1 fs2 directory f :
  (forall p, fs_stat fs1 p = fs_stat fs2 p) ->
  entry_time fs1 directory f = entry_time fs2 directory f.
Proof. intros Hs. unfold entry_time, getctime. now rewrite Hs. Qed.

Lemma get_loop_stat fs1 fs2 directory names acc :
  (forall p, fs_stat fs1 p = fs_stat fs2 p) ->
  get_loop fs1 directory names acc = get_loop fs2 directory names acc.
Proof.
  intros Hs. revert acc; induction names as [|f rest IH]; intros acc; [reflexivity|].
  rewrite !get_loop_unfold, (entry_time_stat fs1 fs2) by exact Hs.
  unfold isfile. rewrite Hs.
  destruct (entry_time fs2 directory f); [reflexivity|]. apply IH.
Qed.

Lemma entry_list_type fs directory f e :
  In e (entry_list fs directory f) -> name e = f /\ type e = (splitext f).2.
Proof.
  unfold entry_list. destruct (entry_time fs directory f) as [err|t]; [easy|].
  destruct (isfile fs (directory +:+ f)); [|easy].
  intros [<-|[]]. split; reflexivity.
Qed.

Lemma get_ret_inv env fs resp code :
  get env fs = ret (resp, code) ->
  exists directory names,
    normalize_directory (getenv env "DIRECTORY" "./") = ret directory /\
    os_listdir fs directory = ret names /\
    forallb (entry_ok fs directory) names = true /\
    data resp = flat_map (entry_list fs directory) names /\
    code = 200.
Proof.
  unfold get, list_directory. intros H.
  destruct (normalize_directory (getenv env "DIRECTORY" "./")) as [e|dir];
    [discriminate|].
  cbn [py_bind] in H.
  destruct (os_listdir fs dir) as [e|names] eqn:Hl; [discriminate|].
  cbn [py_bind] in H.
  destruct (get_loop fs dir names []) as [e|out] eqn:Eg; [discriminate|].
  cbn [py_bind] in H. injection H as <- <-.
  apply get_loop_ret_inv in Eg as [Hok ->].
  exists dir, names. repeat split; assumption.
Qed.

(* ------------------------------------------------------------------ *)
(** ** Properties of the specification *)

(** C1, refuted: with no directory [./], [GET /api/meta] does not answer
    with 404 nor with any other status: [os.listdir] raises
    [FileNotFoundError], which escapes [GetDirectory.get] unhandled. *)
Lemma get_missing_directory_unhandled :
  get ∅ missing_fs = raise (OSError ENOENT).
Proof. reflexivity. Qed.

(** C1, amended: when the configured directory (after normalization) does
    not exist at request time, [GetDirectory.get] raises
    [FileNotFoundError], which it does not handle; it never returns a list. *)
Theorem get_nonexistent_directory_raises env fs directory :
  normalize_directory (getenv env "DIRECTORY" "./") = ret directory ->
  fs_listdir fs directory = inl ENOENT ->
  get env fs = raise (OSError ENOENT).
Proof.
  intros Hn Hl. unfold get, list_directory. rewrite Hn. cbn [py_bind ret].
  unfold os_listdir. rewrite Hl. reflexivity.
Qed.

(** C2: the [Config] class body assigns [DIRECTORY = "./"] in every
    environment, so a value the process was started with is overwritten. *)
Theorem Config_overwrites_DIRECTORY env :
  (Config env).1 !! "DIRECTORY" = Some "./"%string.
Proof. rewrite Config_environ. apply lookup_insert_eq. Qed.

(** C3, refuted: after start-up, setting [DIRECTORY] to [/srv] between two
    requests changes what the second request lists. *)
Lemma get_directory_changes_between_requests :
  get (Config ∅).1 demo_fs <>
  get (<["DIRECTORY" := "/srv"%string]> (Config ∅).1) demo_fs.
Proof. vm_compute. discriminate. Qed.

(** C3, amended: each request lists the directory named by [DIRECTORY] at
    that request: right after start-up that is [./] (set by [Config]), and
    after [DIRECTORY] is set to [d] it is [d]. *)
Theorem get_reads_DIRECTORY_at_request env0 env d fs :
  get (Config env0).1 fs = list_directory fs "./" /\
  get (<["DIRECTORY" := d]> env) fs = list_directory fs d.
Proof.
  unfold get, getenv. rewrite Config_environ.
  now rewrite !lookup_insert_eq.
Qed.

(** C4, refuted: for the regular file [.bashrc] the handler returns
    [type = ""], while the substring from the last period is [.bashrc]. *)
Lemma get_dotfile_type_empty :
  get ∅ dotfile_fs =
    ret ({| data := [{| name := ".bashrc"; type := "";
                        time := "2023-11-14 22:13:20" |}]%string |}, 200) /\
  ext_from_last_period ".bashrc" = ".bashrc"%string.
Proof. split; reflexivity. Qed.

(** C4, amended: the [type] of every entry returned is the substring of its
    name from the last period (inclusive) when a character other than a
    period precedes that period, and [""] otherwise (no period, or only
    periods before it). *)
Theorem get_entry_type env fs resp code e :
  get env fs = ret (resp, code) ->
  In e (data resp) ->
  ~ In "/"%char (list_ascii_of_string (name e)) ->
  type e = ext_unless_leading_dots (name e).
Proof.
  intros H Hin Hsep.
  destruct (get_ret_inv env fs resp code H)
    as (dir & names & _ & _ & _ & Hd & _).
  rewrite Hd in Hin. apply in_flat_map in Hin as (f & _ & Hf).
  destruct (entry_list_type fs dir f e Hf) as [Hn Ht].
  rewrite Ht, <- Hn. apply splitext_ext_no_sep. now rewrite Hn in Hsep |- *.
Qed.

(** C5: [GetDirectory.get] reads the creation time of every entry before
    testing [os.path.isfile]; with a dangling symbolic link next to a regular
    file it raises [FileNotFoundError], where the specification's order
    (test, skip, then read the time) lists the regular file. *)
Theorem get_stats_before_isfile :
  get ∅ dangling_fs = raise (OSError ENOENT) /\
  list_files_spec_order dangling_fs "./" ["a.txt"; "link"]%string =
    ret [{| name := "a.txt"; type := ".txt";
            time := "2023-11-14 22:13:20" |}]%string.
Proof. split; reflexivity. Qed.

(** C6: [Config.DEBUG] is true exactly when [PROJECT_DEBUG] is set to the
    string ["True"]. *)
Theorem Config_DEBUG_iff env :
  DEBUG (Config env).2 = true <-> env !! "PROJECT_DEBUG" = Some "True"%string.
Proof.
  unfold Config, environ_get. cbn [snd DEBUG].
  rewrite lookup_insert_ne by discriminate.
  destruct (env !! "PROJECT_DEBUG") as [v|]; simpl.
  - rewrite String.eqb_eq. split; [intros ->|intros H; injection H]; auto.
  - split; discriminate.
Qed.



(** C8: the normalization of the configured path is meant to append ["/"]
    when it is missing, but on the empty path [directory[-1]] raises
    [IndexError] instead of producing ["/"]. *)
Theorem normalize_directory_empty_raises :
  normalize_directory ""%string = raise IndexError /\
  normalize_spec ""%string = "/"%string.
Proof. split; reflexivity. Qed.

(** C9: two runs of the handler on the same environment and the same
    directory contents, whose enumeration orders may differ, both return
    (with the same status and the same entries up to order) or both
    raise. *)
Theorem get_same_outcome env fs1 fs2 :
  (forall p, fs_stat fs1 p = fs_stat fs2 p) ->
  (forall p, same_listing (fs_listdir fs1 p) (fs_listdir fs2 p)) ->
  same_outcome (get env fs1) (get env fs2).
Proof.
  intros Hs Hl. unfold get, list_directory.
  destruct (normalize_directory (getenv env "DIRECTORY" "./")) as [e|dir];
    [exact I|].
  cbn [py_bind]. unfold os_listdir. specialize (Hl dir).
  destruct (fs_listdir fs1 dir) as [e1|n1], (fs_listdir fs2 dir) as [e2|n2];
    cbn [same_listing] in Hl; try contradiction.
  - exact I.
  - unfold ret at 1 3. cbn [py_bind].
    rewrite (get_loop_stat fs1 fs2) by exact Hs.
    destruct (forallb (entry_ok fs2 dir) n1) eqn:Hok.
    + pose proof Hok as Hok2. rewrite (forallb_Permutation _ _ _ Hl) in Hok2.
      rewrite !get_loop_ok by assumption. cbn. split; [|reflexivity].
      now apply Permutation_flat_map.
    + pose proof Hok as Hok2. rewrite (forallb_Permutation _ _ _ Hl) in Hok2.
      destruct (get_loop_fail fs2 dir n1 [] Hok) as [x1 E1].
      destruct (get_loop_fail fs2 dir n2 [] Hok2) as [x2 E2].
      rewrite E1, E2. exact I.
Qed.

(** C10: [GetDirectory.get] raises [IndexError] exactly when [DIRECTORY]
    holds the empty string at request time; on a non-empty path the
    normalization does not fail. *)
Theorem get_IndexError_iff_empty_DIRECTORY :
  (forall env fs, get env fs = raise IndexError <->
                  env !! "DIRECTORY" = Some EmptyString) /\
  (forall d, d <> EmptyString -> exists d', normalize_directory d = ret d').
Proof.
  split; [|exact normalize_directory_nonempty].
  intros env fs. unfold get, getenv.
  destruct (env !! "DIRECTORY") as [v|].
  - destruct (decide (v = EmptyString)) as [->|Hv].
    + split; intros; reflexivity.
    + destruct (normalize_directory_nonempty v Hv) as [d' Hd'].
      split.
      * intros H. exfalso. exact (list_directory_not_IndexError fs v d' Hd' H).
      * intros H. injection H as ->. contradiction.
  - split.
    + intros H. exfalso.
      exact (list_directory_not_IndexError fs "./" "./" eq_refl H).
    + discriminate.
Qed.

(* ------------------------------------------------------------------ *)
(** ** Instances of the properties on concrete inputs *)

Lemma get_nonexistent_directory_raises_witness :
  normalize_directory (getenv ∅ "DIRECTORY" "./") = ret "./"%string /\
  get ∅ missing_fs = raise (OSError ENOENT).
Proof.
  split; [reflexivity|].
  apply (get_nonexistent_directory_raises ∅ missing_fs "./"); reflexivity.
Defined.

Lemma get_entry_type_witness :
  type {| name := "a.txt"; type := ".txt"; time := "2023-11-14 22:13:20" |} =
  ext_unless_leading_dots "a.txt".
Proof.
  apply (get_entry_type ∅ demo_fs
           {| data := [{| name := "a.txt"; type := ".txt";
                          time := "2023-11-14 22:13:20" |}] |} 200).
  - reflexivity.
  - simpl. left. reflexivity.
  - simpl. intros H. repeat (destruct H as [H|H]; [discriminate H|]). exact H.
Defined.


Lemma get_same_outcome_witness :
  same_outcome (get ∅ demo_fs) (get ∅ demo_fs_reordered).
Proof.
  apply get_same_outcome.
  - intros p. reflexivity.
  - intros p. simpl. destruct (String.eqb p "./").
    + apply perm_swap.
    + destruct (String.eqb p "/srv/"); simpl; [apply Permutation_refl|reflexivity].
Defined.

Lemma get_IndexError_iff_empty_DIRECTORY_witness :
  get (<["DIRECTORY" := EmptyString]> (∅ : environ)) demo_fs = raise IndexError.
Proof.
  apply (proj2 (proj1 get_IndexError_iff_empty_DIRECTORY _ _)).
  reflexivity.
Defined.

(* ------------------------------------------------------------------ *)
(** ** Further properties of the handler and the functions it calls *)

Lemma string_of_list_ascii_app a b :
  string_of_list_ascii (a ++ b) = string_of_list_ascii a +:+ string_of_list_ascii b.
Proof. induction a as [|x a IH]; simpl; [reflexivity|now rewrite IH]. Qed.

Lemma string_length_app a b :
  String.length (a +:+ b) = (String.length a + String.length b)%nat.
Proof. induction a as [|x a IH]; simpl; [reflexivity|now rewrite IH]. Qed.

Lemma index_last_append_char s c :
  index_last (s +:+ String c EmptyString) = ret c.
Proof.
  unfold index_last. rewrite string_length_app. simpl.
  replace (Nat.pred (String.length s + 1)) with (String.length s) by lia.
  induction s as [|x s IH]; simpl; [reflexivity|exact IH].
Qed.

Lemma skip_leading_dots_app l k n d :
  (skip_leading_dots l k n d).1 ++ (skip_leading_dots l k n d).2 = l.
Proof.
  revert k; induction n as [|n IH]; intros k; simpl; [apply app_nil_r|].
  destruct (negb _); [apply firstn_skipn|apply IH].
Qed.

Lemma last_index_None_not_in c l : last_index c l = None -> ~ In c l.
Proof.
  induction l as [|x r IH]; simpl; [easy|].
  destruct (last_index c r); [discriminate|].
  destruct (Ascii.eqb x c) eqn:E; [discriminate|]. intros _ [->|Hi].
  - rewrite Ascii.eqb_refl in E. discriminate.
  - exact (IH eq_refl Hi).
Qed.

Lemma last_index_Some_spec c l d :
  last_index c l = Some d -> nth d l " "%char = c /\ ~ In c (skipn (S d) l).
Proof.
  revert d; induction l as [|x r IH]; intros d H; simpl in H; [discriminate|].
  destruct (last_index c r) as [j|] eqn:E.
  - injection H as <-. destruct (IH j eq_refl) as [H1 H2]. split; assumption.
  - destruct (Ascii.eqb x c) eqn:Ex; [|discriminate]. injection H as <-.
    apply Ascii.eqb_eq in Ex. split; [exact Ex|]. simpl.
    now apply last_index_None_not_in.
Qed.

Lemma In_skipn {A} (x : A) n l : In x (skipn n l) -> In x l.
Proof.
  revert l; induction n as [|n IH]; intros l H; [exact H|].
  destruct l as [|y l]; [exact H|]. right. now apply IH.
Qed.

Lemma In_skipn_le {A} (x : A) n m l :
  (n <= m)%nat -> In x (skipn m l) -> In x (skipn n l).
Proof.
  intros Hle H. replace m with ((m - n) + n)%nat in H by lia.
  rewrite <- skipn_skipn in H. now apply In_skipn in H.
Qed.

Lemma splitext_list_snd l :
  (splitext_list l).2 = [] \/
  exists d, last_index "."%char l = Some d /\ (splitext_list l).2 = skipn d l /\
            ~ In "/"%char (skipn d l).
Proof.
  unfold splitext_list, rfind. rewrite !rfind_aux_last_index. cbv zeta.
  destruct (last_index "."%char l) as [d|] eqn:Hd.
  - pose proof (last_index_lt _ _ _ Hd) as Hlt.
    destruct (last_index "/"%char l) as [s|] eqn:Hs.
    + destruct (Z.ltb_spec (0 + Z.of_nat s) (0 + Z.of_nat d)) as [Hsd|]; [|now left].
      rewrite skip_leading_dots_existsb by lia.
      destruct (existsb _ _); [|now left]. right. exists d.
      replace (Z.to_nat (0 + Z.of_nat d)) with d by lia.
      refine (conj eq_refl (conj eq_refl _)).
      intros Hi. apply (proj2 (last_index_Some_spec _ _ _ Hs)).
      apply (In_skipn_le _ (S s) d); [lia|exact Hi].
    + destruct (Z.ltb_spec (-1) (0 + Z.of_nat d)) as [Hsd|]; [|now left].
      rewrite skip_leading_dots_existsb by lia.
      destruct (existsb _ _); [|now left]. right. exists d.
      replace (Z.to_nat (0 + Z.of_nat d)) with d by lia.
      refine (conj eq_refl (conj eq_refl _)).
      intros Hi. apply (last_index_None_not_in _ _ Hs). now apply In_skipn in Hi.
  - left. destruct (last_index "/"%char l) as [s|].
    + destruct (Z.ltb_spec (0 + Z.of_nat s) (-1)); [lia|reflexivity].
    + reflexivity.
Qed.

(** [root + ext == p] for [root, ext = os.path.splitext(p)]. *)
Theorem splitext_root_ext p : (splitext p).1 +:+ (splitext p).2 = p.
Proof.
  unfold splitext.
  assert (H : forall l, (splitext_list l).1 ++ (splitext_list l).2 = l).
  { intros l. unfold splitext_list. cbv zeta.
    destruct (_ <? _); [apply skip_leading_dots_app|apply app_nil_r]. }
  specialize (H (list_ascii_of_string p)).
  destruct (splitext_list (list_ascii_of_string p)) as [r e]. simpl in *.
  rewrite <- string_of_list_ascii_app, H. apply string_of_list_ascii_of_string.
Qed.

(** The [type] computed by [os.path.splitext] is empty or a period
    followed by characters that are neither a period nor ["/"]. *)
Theorem splitext_ext_shape p :
  (splitext p).2 = EmptyString \/
  exists rest, (splitext p).2 = String "."%char rest /\
    ~ In "."%char (list_ascii_of_string rest) /\
    ~ In "/"%char (list_ascii_of_string rest).
Proof.
  unfold splitext.
  destruct (splitext_list_snd (list_ascii_of_string p)) as [H|(d & Hd & H & Hs)];
    destruct (splitext_list (list_ascii_of_string p)) as [r e]; simpl in *.
  - left. now subst e.
  - right. subst e.
    pose proof (last_index_lt _ _ _ Hd) as Hlt.
    destruct (last_index_Some_spec _ _ _ Hd) as [Hn Hnd].
    rewrite (skipn_nth_cons _ d " "%char Hlt), Hn in Hs |- *.
    exists (string_of_list_ascii (skipn (S d) (list_ascii_of_string p))).
    rewrite list_ascii_of_string_of_list_ascii. repeat split.
    + exact Hnd.
    + intros Hi. apply Hs. now right.
Qed.

(** When the normalization succeeds, its result ends in ["/"] and
    normalizing it again leaves it unchanged. *)
Theorem normalize_directory_ends_with_slash p q :
  normalize_directory p = ret q ->
  index_last q = ret "/"%char /\ normalize_directory q = ret q.
Proof.
  unfold normalize_directory. intros H.
  destruct (index_last p) as [e|c] eqn:Hc; [discriminate|]. cbn [py_bind] in H.
  destruct (Ascii.eqb c "/"%char) eqn:Hs; simpl in H; injection H as <-.
  - apply Ascii.eqb_eq in Hs. subst c. rewrite Hc. split; reflexivity.
  - rewrite index_last_append_char. split; reflexivity.
Qed.

(** A path whose last character is not ["/"] is extended by ["/"], and
    the path given with that trailing ["/"] normalizes to the same path. *)
Theorem normalize_directory_appends_missing p c :
  index_last p = ret c -> c <> "/"%char ->
  normalize_directory p = ret (p +:+ "/")%string /\
  normalize_directory (p +:+ "/")%string = ret (p +:+ "/")%string.
Proof.
  intros Hc Hs. unfold normalize_directory. rewrite Hc, index_last_append_char.
  cbn [py_bind ret]. apply Ascii.eqb_neq in Hs. rewrite Hs. split; reflexivity.
Qed.

(** On an empty directory the handler returns [{"data": []}] with status
    200. *)
Theorem get_empty_directory env fs directory :
  normalize_directory (getenv env "DIRECTORY" "./") = ret directory ->
  fs_listdir fs directory = inr [] ->
  get env fs = ret ({| data := [] |}, 200).
Proof.
  intros Hn Hl. unfold get, list_directory. rewrite Hn. cbn [py_bind ret].
  unfold os_listdir. rewrite Hl. reflexivity.
Qed.

Lemma entry_time_ok fs directory f t :
  entry_time fs directory f = ret t ->
  exists st, fs_stat fs (directory +:+ f) = inr st /\ utc_strftime (st_ctime st) = ret t.
Proof.
  unfold entry_time, getctime. destruct (fs_stat fs (directory +:+ f)) as [e|st];
    [discriminate|]. intros H. now exists st.
Qed.

(** When the handler returns, the status is 200 and every enumerated
    entry, regular file or not, could be [stat]ed and had a creation time
    that [datetime] can represent. *)
Theorem get_ret_every_entry_stat env fs resp code :
  get env fs = ret (resp, code) ->
  code = 200 /\
  exists directory names,
    normalize_directory (getenv env "DIRECTORY" "./") = ret directory /\
    fs_listdir fs directory = inr names /\
    Forall (fun f => exists st, fs_stat fs (directory +:+ f) = inr st /\
                       exists t, utc_strftime (st_ctime st) = ret t) names.
Proof.
  intros H. destruct (get_ret_inv env fs resp code H)
    as (dir & names & Hn & Hl & Hok & _ & Hc).
  split; [exact Hc|]. exists dir, names. split; [exact Hn|]. split.
  - unfold os_listdir in Hl. destruct (fs_listdir fs dir); [discriminate|].
    now injection Hl as ->.
  - apply List.Forall_forall. intros f Hf.
    rewrite forallb_forall in Hok. specialize (Hok f Hf).
    unfold entry_ok in Hok. destruct (entry_time fs dir f) as [e|t] eqn:Et;
      [discriminate|].
    destruct (entry_time_ok _ _ _ _ Et) as (st & Hst & Ht).
    exists st. split; [exact Hst|]. now exists t.
Qed.

(** Every entry returned names an enumerated regular file, and its [time]
    is that file's creation time, formatted. *)
Theorem get_entry_time env fs resp code e :
  get env fs = ret (resp, code) -> In e (data resp) ->
  exists directory names st,
    normalize_directory (getenv env "DIRECTORY" "./") = ret directory /\
    fs_listdir fs directory = inr names /\ In (name e) names /\
    fs_stat fs (directory +:+ name e) = inr st /\ st_type st = S_IFREG /\
    utc_strftime (st_ctime st) = ret (time e).
Proof.
  intros H Hin. destruct (get_ret_inv env fs resp code H)
    as (dir & names & Hn & Hl & _ & Hd & _).
  rewrite Hd in Hin. apply in_flat_map in Hin as (f & Hf & He).
  unfold entry_list in He. destruct (entry_time fs dir f) as [err|t] eqn:Et;
    [destruct He|].
  destruct (isfile fs (dir +:+ f)) eqn:Hfile; [|destruct He].
  destruct He as [<-|[]]. cbn [name time].
  destruct (entry_time_ok _ _ _ _ Et) as (st & Hst & Ht).
  exists dir, names, st. split; [exact Hn|]. split.
  - unfold os_listdir in Hl. destruct (fs_listdir fs dir); [discriminate|].
    now injection Hl as ->.
  - split; [exact Hf|]. split; [exact Hst|]. split; [|exact Ht].
    unfold isfile in Hfile. rewrite Hst in Hfile.
    destruct (st_type st); [reflexivity|discriminate|discriminate].
Qed.

Lemma get_loop_first_failure fs directory pre f post acc err :
  Forall (fun g => exists t, entry_time fs directory g = ret t) pre ->
  entry_time fs directory f = raise err ->
  get_loop fs directory (pre ++ f :: post) acc = raise err.
Proof.
  intros Hpre Hf. revert acc.
  induction Hpre as [|g pre [t Hg] _ IH]; intros acc.
  - cbn [app]. rewrite get_loop_unfold, Hf. reflexivity.
  - cbn [app]. rewrite get_loop_unfold, Hg. apply IH.
Qed.

(** When the [stat] or the time formatting of an entry fails, and it
    succeeded for every entry enumerated before it, the handler raises that
    entry's exception. *)
Theorem get_raises_first_failure env fs directory pre f post err :
  normalize_directory (getenv env "DIRECTORY" "./") = ret directory ->
  fs_listdir fs directory = inr (pre ++ f :: post) ->
  Forall (fun g => exists t, entry_time fs directory g = ret t) pre ->
  entry_time fs directory f = raise err ->
  get env fs = raise err.
Proof.
  intros Hn Hl Hpre Hf. unfold get, list_directory. rewrite Hn.
  cbn [py_bind ret]. unfold os_listdir. rewrite Hl. cbn [py_bind ret].
  rewrite (get_loop_first_failure _ _ _ _ _ _ _ Hpre Hf). reflexivity.
Qed.

(** When [os.listdir] gives distinct names, the names in [data] are
    distinct. *)
Theorem get_names_distinct env fs directory names resp code :
  normalize_directory (getenv env "DIRECTORY" "./") = ret directory ->
  fs_listdir fs directory = inr names -> List.NoDup names ->
  get env fs = ret (resp, code) -> List.NoDup (map name (data resp)).
Proof.
  intros Hn Hl Hnd H.
  destruct (get_ret_inv env fs resp code H)
    as (dir & names' & Hn' & Hl' & Hok & Hd & _).
  rewrite Hn in Hn'. injection Hn' as <-.
  unfold os_listdir in Hl'. rewrite Hl in Hl'. injection Hl' as <-.
  rewrite Hd, entries_names by exact Hok. now apply List.NoDup_filter.
Qed.


(** The conversion on line 19 raises [OverflowError] for a timestamp that
    does not fit a 64-bit [time_t], [OSError(EOVERFLOW)] when [gmtime_r]
    cannot represent the year, and [ValueError] for the remaining years
    outside 1..9999; it returns a string exactly for the timestamps from
    0001-01-01 00:00:00 to 9999-12-31 23:59:59 UTC. *)
Theorem utc_strftime_outcome ts :
  (utc_strftime ts = raise OverflowError <->
     ts < -9223372036854775808 \/ 9223372036854775807 < ts) /\
  (utc_strftime ts = raise (OSError EOVERFLOW) <->
     -9223372036854775808 <= ts < -67768040609740800 \/
     67768036191676799 < ts <= 9223372036854775807) /\
  (utc_strftime ts = raise ValueError <->
     -67768040609740800 <= ts < -62135596800 \/
     253402300799 < ts <= 67768036191676799) /\
  ((exists t, utc_strftime ts = ret t) <-> -62135596800 <= ts <= 253402300799).
Proof.
  pose proof (timestamp_year ts) as Hy. cbv zeta in Hy.
  pose proof (utc_strftime_cases ts) as Hc. cbv zeta in Hc.
  unfold TIME_T_MIN, TIME_T_MAX, INT_MIN, INT_MAX, MINYEAR, MAXYEAR in Hc.
  destruct Hc as [(Hr & ->)|[(Hr & Hi & ->)|[(Hr & Hi & Hv & ->)|(Hr & Hv & t & ->)]]];
    unfold raise, ret;
    repeat split; intros;
    repeat match goal with H : exists _, _ |- _ => destruct H end;
    first [reflexivity | discriminate | (eexists; reflexivity) | lia].
Qed.

(* ------------------------------------------------------------------ *)
(** ** Instances of the further properties *)

Lemma normalize_directory_ends_with_slash_witness :
  index_last "/tmp/"%string = ret "/"%char /\
  normalize_directory "/tmp/"%string = ret "/tmp/"%string.
Proof. apply (normalize_directory_ends_with_slash "/tmp"). reflexivity. Defined.

Lemma normalize_directory_appends_missing_witness :
  normalize_directory "/tmp"%string = ret "/tmp/"%string /\
  normalize_directory "/tmp/"%string = ret "/tmp/"%string.
Proof.
  apply (normalize_directory_appends_missing "/tmp" "p"); [reflexivity|discriminate].
Defined.

Lemma get_empty_directory_witness :
  get ∅ empty_fs = ret ({| data := [] |}, 200).
Proof.
  assert (Hn : normalize_directory (getenv ∅ "DIRECTORY" "./") = ret "./"%string)
    by reflexivity.
  apply (get_empty_directory ∅ empty_fs "./" Hn). reflexivity.
Defined.

Lemma get_ret_every_entry_stat_witness :
  200 = 200 /\
  exists directory names,
    normalize_directory (getenv ∅ "DIRECTORY" "./") = ret directory /\
    fs_listdir demo_fs directory = inr names /\
    Forall (fun f => exists st, fs_stat demo_fs (directory +:+ f) = inr st /\
                       exists t, utc_strftime (st_ctime st) = ret t) names.
Proof.
  assert (H : get ∅ demo_fs = ret (demo_response, 200)) by reflexivity.
  exact (get_ret_every_entry_stat ∅ demo_fs demo_response 200 H).
Defined.

Lemma get_entry_time_witness :
  exists directory names st,
    normalize_directory (getenv ∅ "DIRECTORY" "./") = ret directory /\
    fs_listdir demo_fs directory = inr names /\ In "a.txt"%string names /\
    fs_stat demo_fs (directory +:+ "a.txt") = inr st /\ st_type st = S_IFREG /\
    utc_strftime (st_ctime st) = ret "2023-11-14 22:13:20"%string.
Proof.
  assert (H : get ∅ demo_fs = ret (demo_response, 200)) by reflexivity.
  apply (get_entry_time ∅ demo_fs demo_response 200
           {| name := "a.txt"; type := ".txt"; time := "2023-11-14 22:13:20" |} H).
  simpl. left. reflexivity.
Defined.

Lemma get_raises_first_failure_witness :
  get ∅ dangling_fs = raise (OSError ENOENT).
Proof.
  assert (Hn : normalize_directory (getenv ∅ "DIRECTORY" "./") = ret "./"%string)
    by reflexivity.
  apply (get_raises_first_failure ∅ dangling_fs "./" ["a.txt"%string] "link" [] _ Hn).
  - reflexivity.
  - constructor; [|constructor]. eexists. reflexivity.
  - reflexivity.
Defined.

Lemma get_names_distinct_witness :
  List.NoDup (map name (data demo_response)).
Proof.
  assert (Hn : normalize_directory (getenv ∅ "DIRECTORY" "./") = ret "./"%string)
    by reflexivity.
  apply (get_names_distinct ∅ demo_fs "./" ["a.txt"; "sub"]%string demo_response 200 Hn).
  - reflexivity.
  - constructor; [simpl; intros [H|[]]; discriminate H|].
    constructor; [intros []|constructor].
  - reflexivity.
Defined.

